(** * The voila crypto dashboard: exchange-rate refresh

    A shallow embedding of the logic cells of
    [openbb_terminal/dashboards/voila/crypto.ipynb]: the ticker list
    [COIN_LIST], the module-level dictionary [exchange_rates], the function
    [get_exchange_rate] and the button callback [show_rates].

    Python values are modelled as follows.
    - A close price is a [numpy.float64], here a binary64 primitive float.
    - A pandas [DataFrame] is its list of named columns, a [Series] the list
      of its values; [df["Close"]] and [.iloc[i]] raise as pandas does.
    - Exceptions are values of [exn]; a computation returns [Ok v] or
      [Raise e].  Only subclasses of Python's [Exception] are modelled, the
      class the handler of [show_rates] names.
    - The notebook's mutable globals ([exchange_rates], [grid.children]) and
      the outside world are the fields of [State]; a statement is a state
      transformer that may raise.  What a run does outside the notebook (a
      load from the data source, an assignment to [grid.children], which
      the widget framework displays) is recorded in [trace], in the order
      in which it happens.
    - What the notebook does not define is a parameter: the data source
      [openbb.crypto.load], Python's [str] on a float, and the binding of the
      global name [api] when [show_rates] runs. *)

From Stdlib Require Import ZArith String Ascii List Floats Lia.
From stdpp Require Import base option list gmap strings.
Import ListNotations.

Local Open Scope Z_scope.

(** ** Python values *)

Inductive exn : Type :=
| NameError (name : string)
| KeyError (key : string)
| IndexError
| Exception (msg : string).

Inductive Result (A : Type) : Type :=
| Ok (a : A)
| Raise (e : exn).
Arguments Ok {A} a.
Arguments Raise {A} e.

Abbreviation Series := (list float).
Abbreviation DataFrame := (list (string * Series)).

(** [df[key]]: the column named [key], [KeyError] when there is none. *)
Fixpoint getitem (df : DataFrame) (key : string) : Result Series :=
  match df with
  | [] => Raise (KeyError key)
  | (name, col) :: rest =>
      if String.eqb name key then Ok col else getitem rest key
  end.

(** [s.iloc[i]]: a negative [i] counts from the end; out of bounds raises. *)
Definition iloc (s : Series) (i : Z) : Result float :=
  let n := Z.of_nat (length s) in
  let j := if i <? 0 then i + n else i in
  if (j <? 0) || (n <=? j) then Raise IndexError
  else match s !! Z.to_nat j with
       | Some x => Ok x
       | None => Raise IndexError
       end.

(** [df["Close"].iloc[i]] *)
Definition close_iloc (df : DataFrame) (i : Z) : Result float :=
  match getitem df "Close" with
  | Ok s => iloc s i
  | Raise e => Raise e
  end.

(** [a > b] and [a < b] on [numpy.float64]. *)
Definition float_gt (a b : float) : bool := PrimFloat.ltb b a.
Definition float_lt (a b : float) : bool := PrimFloat.ltb a b.

(** [s[:n]] *)
Definition slice_to (n : nat) (s : string) : string := String.substring 0 n s.

(** [s.split(sep)] for a one-character separator. *)
Fixpoint split_aux (sep : ascii) (s : string) (cur : string) : list string :=
  match s with
  | EmptyString => [String.rev cur]
  | String c rest =>
      if Ascii.eqb c sep then String.rev cur :: split_aux sep rest EmptyString
      else split_aux sep rest (String c cur)
  end.

Definition split (s : string) (sep : ascii) : list string :=
  split_aux sep s EmptyString.

(** ** The notebook's data *)

Definition COIN_LIST : list string :=
  split ("BTC,ETH,USDT,BNB,USDC,XRP,LUNA,ADA,"
         +:+ "SOL,AVAX,DOT,BUSD,DOGE,UST,SHIB,WBTC,"
         +:+ "MATIC,CRO,DAI,LTC,ATOM,NEAR,LINK,BCH,"
         +:+ "UNI,TRX,FTT,ETC,LEO,ALGO,XLM,MANA,"
         +:+ "BTCB,HBAR,EGLD,ICP,SAND,XMR,WAVES,VET,"
         +:+ "APE,FIL,FTM,AXS,THETA,KLAY,XTZ,RUNE") ",".

Inductive PriceColor : Type := neutral_color | up_color | down_color.

(** A value of [exchange_rates]: the dictionary [{"price": _, "color": _}]. *)
Record Entry : Type := mkEntry {
  price : option string;
  color : option PriceColor
}.

(** The keyword arguments of one call of [openbb.crypto.load]. *)
Record Request : Type := mkRequest {
  symbol : string;
  interval : string;
  source : string
}.

(** An [ipw.HTML] widget, by its [value]. *)
Record HTML : Type := mkHTML { value : string }.

(** The argument of the callback, which it does not use. *)
Definition Button : Type := unit.

Inductive Event : Type :=
| EvLoad (req : Request) (resp : Result DataFrame)
| EvChildren (cards : list HTML).

#[global] Instance exn_eq_dec : EqDecision exn.
Proof. solve_decision. Defined.
#[global] Instance PriceColor_eq_dec : EqDecision PriceColor.
Proof. solve_decision. Defined.
#[global] Instance Entry_eq_dec : EqDecision Entry.
Proof. solve_decision. Defined.
#[global] Instance Request_eq_dec : EqDecision Request.
Proof. solve_decision. Defined.
#[global] Instance HTML_eq_dec : EqDecision HTML.
Proof. solve_decision. Defined.

(** The type of [api.widgets.price_card] when the name [api] is bound. *)
Definition PriceCard : Type := string → string → PriceColor → Result string.

Section Notebook.

(** The state of the data source, and one call of [openbb.crypto.load]. *)
Variable World : Type.
Variable crypto_load : Request → World → Result DataFrame * World.

(** Python's [str] on a close price. *)
Variable str : float → string.

(** The global name [api] at the time [show_rates] runs: [None] when it is
    unbound, as in the notebook, whose only import from the terminal is
    [from openbb_terminal.sdk import openbb, widgets]. *)
Variable api : option PriceCard.

Record State : Type := mkState {
  exchange_rates : gmap string Entry;
  grid_children : list HTML;
  world : World;
  trace : list Event
}.

(** *** Statements: state transformers that may raise *)

Definition M (A : Type) : Type := State → Result A * State.

Definition ret {A} (a : A) : M A := fun st => (Ok a, st).
Definition raise {A} (e : exn) : M A := fun st => (Raise e, st).
Definition bind {A B} (m : M A) (k : A → M B) : M B :=
  fun st =>
    match m st with
    | (Ok a, st') => k a st'
    | (Raise e, st') => (Raise e, st')
    end.
Definition lift {A} (r : Result A) : M A := fun st => (r, st).

(** [try: m  except Exception as e: h e] *)
Definition try_except {A} (m : M A) (h : exn → M A) : M A :=
  fun st =>
    match m st with
    | (Ok a, st') => (Ok a, st')
    | (Raise e, st') => h e st'
    end.

Notation "x <- m ;; k" := (bind m (fun x => k))
  (at level 100, m at next level, right associativity).
Notation "m ;;; k" := (bind m (fun _ => k))
  (at level 100, right associativity).

(** [for x in l: body x] *)
Fixpoint for_in {A} (l : list A) (body : A → M unit) : M unit :=
  match l with
  | [] => ret tt
  | x :: rest => body x ;;; for_in rest body
  end.

(** *** Primitive statements *)

(** [openbb.crypto.load(symbol=.., interval=.., source=..)] *)
Definition openbb_crypto_load (req : Request) : M DataFrame :=
  fun st =>
    let (resp, w) := crypto_load req (world st) in
    (resp, mkState (exchange_rates st) (grid_children st) w
                   (trace st ++ [EvLoad req resp])).

(** [coin not in exchange_rates.keys()] *)
Definition not_in_keys (coin : string) : M bool :=
  fun st => (Ok (bool_decide (exchange_rates st !! coin = None)), st).

(** [exchange_rates[coin] = e] *)
Definition setitem_rates (coin : string) (e : Entry) : M unit :=
  fun st =>
    (Ok tt, mkState (<[coin := e]> (exchange_rates st)) (grid_children st)
                    (world st) (trace st)).

(** [list(grid.children)] *)
Definition get_children : M (list HTML) :=
  fun st => (Ok (grid_children st), st).

(** [grid.children = tuple(cs)] *)
Definition set_children (cs : list HTML) : M unit :=
  fun st =>
    (Ok tt, mkState (exchange_rates st) cs (world st)
                    (trace st ++ [EvChildren cs])).

(** [api.widgets.price_card(ticker=.., price=.., price_color=..)] *)
Definition api_widgets_price_card
    (ticker price : string) (price_color : PriceColor) : M string :=
  match api with
  | None => raise (NameError "api")
  | Some price_card => lift (price_card ticker price price_color)
  end.

(** *** The notebook's functions *)

Definition get_exchange_rate (coin : string) (days : Z)
  : M (string * PriceColor) :=
  current_df <- openbb_crypto_load (mkRequest coin "1440" "CCXT") ;;
  let price_color := neutral_color in
  a <- lift (close_iloc current_df (-1)) ;;
  b <- lift (close_iloc current_df (-2)) ;;
  price_color <-
    (if float_gt a b then ret up_color
     else
       a' <- lift (close_iloc current_df (-1)) ;;
       b' <- lift (close_iloc current_df (-2)) ;;
       ret (if float_lt a' b' then down_color else price_color)) ;;
  c <- lift (close_iloc current_df (-1)) ;;
  let price := slice_to 7 (str c) in
  ret (price, price_color).

(** The [try] statement of [show_rates]. *)
Definition try_get_exchange_rate (coin : string) : M (string * PriceColor) :=
  try_except (get_exchange_rate coin 2)
             (fun e => ret ("-------"%string, neutral_color)).

(** The body of the [for] loop of [show_rates]. *)
Definition show_rates_body (coin : string) : M unit :=
  absent <- not_in_keys coin ;;
  (if absent : bool then setitem_rates coin (mkEntry None None) else ret tt) ;;;
  pc <- try_get_exchange_rate coin ;;
  widgets <- get_children ;;
  card <- api_widgets_price_card coin (fst pc) (snd pc) ;;
  let widgets := widgets ++ [mkHTML card] in
  set_children widgets.

Definition show_rates (btn : Button) : M unit :=
  set_children [] ;;;
  for_in COIN_LIST show_rates_body.

End Notebook.

Arguments mkState {World} _ _ _ _.
Arguments exchange_rates {World} _.
Arguments grid_children {World} _.
Arguments world {World} _.
Arguments trace {World} _.

(** ** Reading a run *)

(** The request [get_exchange_rate] sends for [coin]. *)
Definition request_for (coin : string) : Request := mkRequest coin "1440" "CCXT".

(** The entry [show_rates] stores for a symbol that has none. *)
Definition empty_entry : Entry := mkEntry None None.

(** The price and color [show_rates] uses when the fetch raised. *)
Definition placeholder : string * PriceColor := ("-------"%string, neutral_color).

(** The requests sent, the responses received and the values assigned to
    [grid.children], read off a trace. *)
Fixpoint requests (tr : list Event) : list Request :=
  match tr with
  | [] => []
  | EvLoad req _ :: rest => req :: requests rest
  | EvChildren _ :: rest => requests rest
  end.

Fixpoint responses (tr : list Event) : list (Result DataFrame) :=
  match tr with
  | [] => []
  | EvLoad _ resp :: rest => resp :: responses rest
  | EvChildren _ :: rest => responses rest
  end.

Fixpoint children_writes (tr : list Event) : list (list HTML) :=
  match tr with
  | [] => []
  | EvLoad _ _ :: rest => children_writes rest
  | EvChildren cs :: rest => cs :: children_writes rest
  end.

(** [exchange_rates] after the first two statements of the loop body. *)
Definition ensure_entry (coin : string) (m : gmap string Entry)
  : gmap string Entry :=
  match m !! coin with
  | None => <[coin := empty_entry]> m
  | Some _ => m
  end.

Section Reading.

Variable str : float → string.
Variable api : option PriceCard.

(** What [get_exchange_rate] computes from the frame it loaded. *)
Definition rate_of_frame (df : DataFrame) : Result (string * PriceColor) :=
  match close_iloc df (-1), close_iloc df (-2) with
  | Ok latest, Ok prior =>
      Ok (slice_to 7 (str latest),
          if float_gt latest prior then up_color
          else if float_lt latest prior then down_color
          else neutral_color)
  | Raise e, _ => Raise e
  | Ok _, Raise e => Raise e
  end.

(** The price and color of a card, from the response to its request. *)
Definition shown (resp : Result DataFrame) : string * PriceColor :=
  match resp with
  | Ok df => match rate_of_frame df with
             | Ok pc => pc
             | Raise _ => placeholder
             end
  | Raise _ => placeholder
  end.

(** The card-construction expression, as a value. *)
Definition render (coin : string) (pc : string * PriceColor) : Result string :=
  match api with
  | None => Raise (NameError "api")
  | Some price_card => price_card coin (fst pc) (snd pc)
  end.

(** One completed turn of the loop: the symbol, the response to its
    request and the markup of its card. *)
Definition Turn : Type := string * Result DataFrame * string.

Definition turn_coin (t : Turn) : string := fst (fst t).
Definition turn_card (t : Turn) : HTML := mkHTML (snd t).
Definition turn_ok (t : Turn) : Prop :=
  render (turn_coin t) (shown (snd (fst t))) = Ok (snd t).

(** The events of completed turns, [cs] being [grid.children] before. *)
Fixpoint turn_events (cs : list HTML) (ts : list Turn) : list Event :=
  match ts with
  | [] => []
  | t :: rest =>
      EvLoad (request_for (turn_coin t)) (snd (fst t))
      :: EvChildren (cs ++ [turn_card t])
      :: turn_events (cs ++ [turn_card t]) rest
  end.

End Reading.

Section Clicks.

Context {World : Type}.
Variable crypto_load : Request → World → Result DataFrame * World.
Variable str : float → string.
Variable api : option PriceCard.

(** The state after the request for [coin] was answered by [resp]. *)
Definition after_load (coin : string) (resp : Result DataFrame) (w : World)
    (st : State World) : State World :=
  mkState (exchange_rates st) (grid_children st) w
          (trace st ++ [EvLoad (request_for coin) resp]).

(** The state in which the loop of [show_rates] starts. *)
Definition cleared (st : State World) : State World :=
  mkState (exchange_rates st) [] (world st) (trace st ++ [EvChildren []]).

(** [n] clicks of the button, one after the other. *)
Fixpoint refreshes (n : nat) (st : State World) : State World :=
  match n with
  | O => st
  | S n' => (show_rates World crypto_load str api tt (refreshes n' st)).2
  end.

End Clicks.

(** ** A data source and a namespace to run the notebook on

    A data source that answers every request for a symbol the same way, the
    values of Python's [str] at the closes it serves, and a stand-in for
    [api.widgets.price_card] that writes down its three arguments. *)

(** The binary64 value nearest to 12345.6789, which Python prints as
    12345.6789. *)
Definition close_12345_6789 : float := 0x1.81cd6e631f8a1p+13%float.

Definition sample_frame (closes : Series) : DataFrame :=
  [("Open"%string, closes); ("Close"%string, closes)].

Definition sample_load (req : Request) (w : unit) : Result DataFrame * unit :=
  let sym := symbol req in
  (if String.eqb sym "BTC" then Ok (sample_frame [10; 12]%float)
   else if String.eqb sym "ETH" then Ok (sample_frame [12; 10]%float)
   else if String.eqb sym "USDT" then Ok (sample_frame [10; 10]%float)
   else if String.eqb sym "BNB" then Raise (Exception "network unreachable")
   else if String.eqb sym "USDC" then Ok []
   else if String.eqb sym "XRP" then Ok (sample_frame [10]%float)
   else Ok (sample_frame [10; 12; close_12345_6789]%float),
   w).

(** A data source that is down. *)
Definition failing_load (req : Request) (w : unit) : Result DataFrame * unit :=
  (Raise (Exception "network unreachable"), w).

(** Python's [str] at the closes the sample data source serves. *)
Definition sample_str (x : float) : string :=
  if PrimFloat.eqb x 10 then "10.0"
  else if PrimFloat.eqb x 12 then "12.0"
  else if PrimFloat.eqb x close_12345_6789 then "12345.6789"
  else "nan".

Definition color_name (c : PriceColor) : string :=
  match c with
  | neutral_color => "neutral_color"
  | up_color => "up_color"
  | down_color => "down_color"
  end.

Definition sample_price_card : PriceCard :=
  fun ticker price price_color =>
    Ok (ticker +:+ "|" +:+ price +:+ "|" +:+ color_name price_color).

(** The notebook before the first click: an empty dictionary, an empty grid. *)
Definition initial_state : State unit := mkState ∅ [] tt [].

(** A state in which an earlier run of the notebook left an entry for BTC. *)
Definition stale_state : State unit :=
  mkState {[ "BTC"%string := mkEntry (Some "9.0"%string) (Some down_color) ]}
          [mkHTML "old card"] tt [].

(** A click with the name [api] bound to the stand-in, and a click in the
    notebook as written. *)
Definition sample_refresh : State unit → Result unit * State unit :=
  show_rates unit sample_load sample_str (Some sample_price_card) tt.

Definition notebook_refresh : State unit → Result unit * State unit :=
  show_rates unit sample_load sample_str None tt.

(** ** The ticker list *)

Lemma COIN_LIST_length : length COIN_LIST = 48%nat.
Proof. vm_compute. reflexivity. Qed.

Lemma COIN_LIST_NoDup : NoDup COIN_LIST.
Proof. apply (bool_decide_unpack (NoDup COIN_LIST)). vm_compute. exact I. Qed.

Lemma COIN_LIST_head : ∃ post, COIN_LIST = "BTC"%string :: post.
Proof. eexists. vm_compute. reflexivity. Qed.

(** ** Floats, series and frames *)

Lemma SFcompare_opp a b :
  SFcompare b a = option_map CompOpp (SFcompare a b).
Proof.
  destruct a as [sa| sa| |sa ma ea], b as [sb| sb| |sb mb eb]; simpl;
    try reflexivity;
    try (destruct sa; reflexivity); try (destruct sb; reflexivity);
    try (destruct sa, sb; reflexivity).
  destruct sa, sb; simpl; try reflexivity;
    rewrite (Z.compare_antisym ea eb);
    destruct (ea ?= eb)%Z; simpl; try reflexivity;
    fold (Pos.compare ma mb) (Pos.compare mb ma);
    rewrite (Pos.compare_antisym ma mb);
    destruct (ma ?= mb)%positive; reflexivity.
Qed.

(** [a < b] excludes [a > b]. *)
Lemma float_lt_not_gt a b : float_lt a b = true → float_gt a b = false.
Proof.
  unfold float_lt, float_gt. rewrite !FloatAxioms.ltb_spec. unfold SFltb.
  rewrite (SFcompare_opp (Prim2SF a) (Prim2SF b)).
  destruct (SFcompare _ _) as [[]|]; simpl; congruence.
Qed.

(** Equal closes are neither greater nor less. *)
Lemma float_eqb_neither a b :
  PrimFloat.eqb a b = true → float_gt a b = false ∧ float_lt a b = false.
Proof.
  unfold float_lt, float_gt. rewrite !FloatAxioms.ltb_spec, FloatAxioms.eqb_spec. unfold SFltb, SFeqb.
  rewrite (SFcompare_opp (Prim2SF a) (Prim2SF b)).
  destruct (SFcompare _ _) as [[]|]; simpl; try congruence. done.
Qed.

Lemma float_lt_irrefl a : float_lt a a = false.
Proof.
  destruct (float_lt a a) eqn:H; [|reflexivity].
  pose proof (float_lt_not_gt _ _ H) as H'. unfold float_gt, float_lt in *.
  congruence.
Qed.

(** A negative index counts from the end of the series. *)
Lemma iloc_neg (s : Series) (k : nat) :
  (1 ≤ k)%nat →
  iloc s (- Z.of_nat k) =
    if decide (k ≤ length s)%nat then
      match s !! (length s - k)%nat with
      | Some x => Ok x
      | None => Raise IndexError
      end
    else Raise IndexError.
Proof.
  intros Hk. unfold iloc.
  destruct (Z.ltb_spec (- Z.of_nat k) 0) as [_|]; [|lia].
  destruct (Z.ltb_spec (- Z.of_nat k + Z.of_nat (length s)) 0) as [Hlt|Hge];
    destruct (decide (k ≤ length s)%nat) as [Hle|Hnle]; try lia; simpl.
  - reflexivity.
  - destruct (Z.leb_spec (Z.of_nat (length s)) (- Z.of_nat k + Z.of_nat (length s)));
      [lia|].
    replace (Z.to_nat (- Z.of_nat k + Z.of_nat (length s)))
      with (length s - k)%nat by lia.
    reflexivity.
Qed.

(** The last two values of a series, through [iloc]. *)
Lemma iloc_last_two front (prior latest : float) :
  iloc (front ++ [prior; latest]) (-1) = Ok latest ∧
  iloc (front ++ [prior; latest]) (-2) = Ok prior.
Proof.
  change (-1) with (- Z.of_nat 1). change (-2) with (- Z.of_nat 2).
  rewrite !iloc_neg by lia. rewrite length_app. simpl length.
  rewrite !decide_True by lia.
  rewrite !lookup_app_r by lia.
  replace (length front + 2 - 1 - length front)%nat with 1%nat by lia.
  replace (length front + 2 - 2 - length front)%nat with 0%nat by lia.
  done.
Qed.

(** A series that answers [iloc[-1]] and [iloc[-2]] ends with those two. *)
Lemma iloc_last_two_inv (s : Series) (prior latest : float) :
  iloc s (-1) = Ok latest → iloc s (-2) = Ok prior →
  ∃ front, s = front ++ [prior; latest].
Proof.
  change (-1) with (- Z.of_nat 1). change (-2) with (- Z.of_nat 2).
  rewrite !iloc_neg by lia. set (n := length s).
  destruct (decide (2 ≤ n)%nat) as [Hn|]; [|discriminate].
  rewrite decide_True by lia.
  destruct (s !! (n - 1)%nat) as [x|] eqn:H1; [|discriminate].
  destruct (s !! (n - 2)%nat) as [y|] eqn:H2; [|discriminate].
  intros [= ->] [= ->].
  exists (take (n - 2) s).
  rewrite <- (take_drop (n - 2) s) at 1. f_equal.
  assert (Hlen : length (drop (n - 2) s) = 2%nat)
    by (rewrite length_drop; fold n; lia).
  assert (Ha : drop (n - 2) s !! 0%nat = Some prior)
    by (rewrite lookup_drop, Nat.add_0_r; exact H2).
  assert (Hb : drop (n - 2) s !! 1%nat = Some latest).
  { rewrite lookup_drop. replace (n - 2 + 1)%nat with (n - 1)%nat by lia. exact H1. }
  destruct (drop (n - 2) s) as [|a [|b [|c rest]]]; simpl in Hlen; try lia.
  simpl in Ha, Hb. congruence.
Qed.

(** ** The statements, one by one *)

Section Statements.

Context {World : Type}.
Variable crypto_load : Request → World → Result DataFrame * World.
Variable str : float → string.
Variable api : option PriceCard.

Abbreviation State := (State World).
Abbreviation get_rate := (get_exchange_rate World crypto_load str).
Abbreviation try_rate := (try_get_exchange_rate World crypto_load str).
Abbreviation body := (show_rates_body World crypto_load str api).
Abbreviation refresh := (show_rates World crypto_load str api).

Lemma get_exchange_rate_eq coin days st :
  get_rate coin days st =
    (match (crypto_load (request_for coin) (world st)).1 with
     | Ok df => rate_of_frame str df
     | Raise e => Raise e
     end,
     after_load coin (crypto_load (request_for coin) (world st)).1
                (crypto_load (request_for coin) (world st)).2 st).
Proof.
  unfold get_exchange_rate, bind, openbb_crypto_load, after_load, request_for.
  destruct (crypto_load _ _) as [[df|e] w]; simpl; [|reflexivity].
  unfold rate_of_frame, lift, ret.
  destruct (close_iloc df (-1)) as [a|e1]; [|reflexivity].
  destruct (close_iloc df (-2)) as [b|e2]; [|reflexivity].
  destruct (float_gt a b); [reflexivity|].
  destruct (float_lt a b); reflexivity.
Qed.

Lemma try_get_exchange_rate_eq coin st :
  try_rate coin st =
    (Ok (shown str (crypto_load (request_for coin) (world st)).1),
     after_load coin (crypto_load (request_for coin) (world st)).1
                (crypto_load (request_for coin) (world st)).2 st).
Proof.
  unfold try_get_exchange_rate, try_except.
  rewrite get_exchange_rate_eq. unfold shown, placeholder, ret.
  destruct (crypto_load _ _) as [[df|e] w]; simpl; [|reflexivity].
  destruct (rate_of_frame str df); reflexivity.
Qed.

(** The card-construction statement is [render], and leaves the state. *)
Lemma api_widgets_price_card_eq ticker p c (st : State) :
  api_widgets_price_card World api ticker p c st = (render api ticker (p, c), st).
Proof. unfold api_widgets_price_card, render. by destruct api. Qed.

(** The loop body, statement by statement. *)
Lemma show_rates_body_eq coin st :
  body coin st =
    let resp := (crypto_load (request_for coin) (world st)).1 in
    let w := (crypto_load (request_for coin) (world st)).2 in
    let rates := ensure_entry coin (exchange_rates st) in
    let tr := trace st ++ [EvLoad (request_for coin) resp] in
    match render api coin (shown str resp) with
    | Ok html =>
        let cs := grid_children st ++ [mkHTML html] in
        (Ok tt, mkState rates cs w (tr ++ [EvChildren cs]))
    | Raise e => (Raise e, mkState rates (grid_children st) w tr)
    end.
Proof.
  unfold show_rates_body, bind, not_in_keys, ensure_entry.
  case_bool_decide as Hlook; [rewrite Hlook | destruct (_ !! coin); [|done]];
    unfold setitem_rates, ret; rewrite try_get_exchange_rate_eq;
    unfold get_children; rewrite api_widgets_price_card_eq;
    unfold after_load, set_children; cbn -[render shown];
    rewrite <- surjective_pairing;
    destruct (render api coin _); reflexivity.
Qed.

(** *** The loop *)

Lemma for_in_app {A} (l1 l2 : list A) (f : A → M World unit) st :
  for_in World (l1 ++ l2) f st =
    match for_in World l1 f st with
    | (Ok _, st1) => for_in World l2 f st1
    | (Raise e, st1) => (Raise e, st1)
    end.
Proof.
  revert st. induction l1 as [|x l1 IH]; intros st; simpl.
  - reflexivity.
  - unfold bind. destruct (f x st) as [[[]|e] st1]; [apply IH | reflexivity].
Qed.

(** A loop that raises did so in the body of one element, after the
    bodies of the elements before it returned. *)
Lemma for_in_raise_inv {A} (l : list A) (f : A → M World unit) st e st' :
  for_in World l f st = (Raise e, st') →
  ∃ pre x post st1,
    l = pre ++ x :: post ∧
    for_in World pre f st = (Ok tt, st1) ∧
    f x st1 = (Raise e, st').
Proof.
  revert st. induction l as [|x l IH]; intros st; simpl.
  - unfold ret. discriminate.
  - unfold bind. destruct (f x st) as [[[]|e1] st1] eqn:Hx.
    + intros Hrest. destruct (IH _ Hrest) as (pre & y & post & st2 & -> & Hpre & Hy).
      exists (x :: pre), y, post, st2. split; [reflexivity|]. split; [|exact Hy].
      simpl. unfold bind. rewrite Hx. exact Hpre.
    + intros [= -> ->]. exists [], x, l, st. done.
Qed.

Lemma requests_app tr1 tr2 : requests (tr1 ++ tr2) = requests tr1 ++ requests tr2.
Proof. induction tr1 as [|[]]; simpl; congruence. Qed.

Lemma responses_app tr1 tr2 : responses (tr1 ++ tr2) = responses tr1 ++ responses tr2.
Proof. induction tr1 as [|[]]; simpl; congruence. Qed.

Lemma children_writes_app tr1 tr2 :
  children_writes (tr1 ++ tr2) = children_writes tr1 ++ children_writes tr2.
Proof. induction tr1 as [|[]]; simpl; congruence. Qed.

Lemma requests_turn_events cs ts :
  requests (turn_events cs ts) = map request_for (map turn_coin ts).
Proof. revert cs. induction ts as [|t ts IH]; intros cs; simpl; [done|]. by rewrite IH. Qed.

Lemma responses_turn_events cs (ts : list Turn) :
  responses (turn_events cs ts) = map (λ t : Turn, t.1.2) ts.
Proof. revert cs. induction ts as [|t ts IH]; intros cs; simpl; [done|]. by rewrite IH. Qed.

(** Each turn assigns to [grid.children] the cards so far. *)
Lemma children_writes_turn_events cs ts :
  children_writes (turn_events cs ts) =
    map (λ k, cs ++ take k (map turn_card ts)) (seq 1 (length ts)).
Proof.
  revert cs. induction ts as [|t ts IH]; intros cs; simpl; [done|].
  rewrite IH. f_equal. rewrite <- (seq_shift (length ts) 1), map_map.
  apply map_ext. intros k. simpl. by rewrite <- app_assoc.
Qed.

(** A loop that returns made one turn per symbol, in order. *)
Lemma loop_ok coins st st' :
  for_in World coins body st = (Ok tt, st') →
  ∃ ts : list Turn,
    map turn_coin ts = coins ∧
    Forall (turn_ok str api) ts ∧
    exchange_rates st' =
      foldl (λ m c, ensure_entry c m) (exchange_rates st) coins ∧
    grid_children st' = grid_children st ++ map turn_card ts ∧
    trace st' = trace st ++ turn_events (grid_children st) ts.
Proof.
  revert st. induction coins as [|coin coins IH]; intros st; simpl.
  - unfold ret. intros [= <-]. exists []. simpl.
    rewrite !app_nil_r. done.
  - unfold bind. rewrite show_rates_body_eq. cbv zeta.
    destruct (render api coin _) as [html|e] eqn:Hr; [|discriminate].
    intros Hrest. destruct (IH _ Hrest) as (ts & Hc & Hok & Hm & Hg & Ht).
    simpl in Hm, Hg, Ht.
    exists ((coin, (crypto_load (request_for coin) (world st)).1, html) :: ts).
    simpl. unfold turn_coin at 1, turn_card at 1; simpl.
    split; [by rewrite Hc|]. split; [constructor; [exact Hr|exact Hok]|].
    split; [exact Hm|]. split.
    + rewrite Hg, <- app_assoc. done.
    + rewrite Ht, <- !app_assoc. done.
Qed.

(** A loop that raises made its turns for the symbols before, sent the
    request of the symbol at which it stopped, and left the grid as the
    last completed turn assigned it. *)
Lemma loop_raise coins st e st' :
  for_in World coins body st = (Raise e, st') →
  ∃ (ts : list Turn) coin post resp,
    coins = map turn_coin ts ++ coin :: post ∧
    Forall (turn_ok str api) ts ∧
    render api coin (shown str resp) = Raise e ∧
    exchange_rates st' =
      foldl (λ m c, ensure_entry c m) (exchange_rates st)
            (map turn_coin ts ++ [coin]) ∧
    grid_children st' = grid_children st ++ map turn_card ts ∧
    trace st' =
      trace st ++ turn_events (grid_children st) ts
               ++ [EvLoad (request_for coin) resp].
Proof.
  intros Hloop.
  destruct (for_in_raise_inv _ _ _ _ _ Hloop)
    as (pre & coin & post & st1 & -> & Hpre & Hcoin).
  destruct (loop_ok _ _ _ Hpre) as (ts & Hc & Hok & Hm & Hg & Ht).
  rewrite show_rates_body_eq in Hcoin. cbv zeta in Hcoin.
  destruct (render api coin _) as [html|e'] eqn:Hr; [discriminate|].
  injection Hcoin as -> <-. simpl.
  exists ts, coin, post, (crypto_load (request_for coin) (world st1)).1.
  rewrite Hc, foldl_app, <- Hm, <- Hg, Ht, <- app_assoc. done.
Qed.

(** Whatever the outcome, a loop only appends to the trace. *)
Lemma loop_trace_app coins st :
  ∃ evs, trace (for_in World coins body st).2 = trace st ++ evs.
Proof.
  destruct (for_in World coins body st) as [[[]|e] st'] eqn:Hloop; simpl.
  - destruct (loop_ok _ _ _ Hloop) as (ts & _ & _ & _ & _ & Ht). eauto.
  - destruct (loop_raise _ _ _ _ Hloop) as (ts & c & post & resp & _ & _ & _ & _ & _ & Ht).
    eauto.
Qed.

(** *** The dictionary *)

Lemma ensure_entry_lookup coin m s :
  ensure_entry coin m !! s =
    if decide (s = coin) then Some (default empty_entry (m !! s)) else m !! s.
Proof.
  unfold ensure_entry. destruct (decide (s = coin)) as [->|Hne].
  - destruct (m !! coin) as [e0|] eqn:Hl; simpl; [exact Hl|].
    apply lookup_insert_eq.
  - destruct (m !! coin); [done|]. by rewrite lookup_insert_ne.
Qed.

Lemma ensure_entries_lookup coins m s :
  foldl (λ m c, ensure_entry c m) m coins !! s =
    if decide (s ∈ coins) then Some (default empty_entry (m !! s)) else m !! s.
Proof.
  revert m. induction coins as [|c coins IH]; intros m; simpl.
  - reflexivity.
  - rewrite IH, ensure_entry_lookup.
    destruct (decide (s = c)) as [Heq|Hne], (decide (s ∈ coins)) as [Hin|Hnin],
      (decide (_ ∈ _ :: _)) as [Hc|Hc]; simpl; try done;
      exfalso; rewrite elem_of_cons in Hc; tauto.
Qed.

Lemma request_for_elem_of s coins :
  request_for s ∈ map request_for coins → s ∈ coins.
Proof.
  intros Hin. apply list_elem_of_In, in_map_iff in Hin. destruct Hin as (c & Hc & Hin).
  apply list_elem_of_In. injection Hc as ->. exact Hin.
Qed.

Lemma show_rates_eq btn st :
  refresh btn st = for_in World COIN_LIST body (cleared st).
Proof. reflexivity. Qed.

Lemma slice_to_length n s : (String.length (slice_to n s) ≤ n)%nat.
Proof.
  unfold slice_to. revert s. induction n as [|n IH]; intros [|c s]; simpl; try lia.
  specialize (IH s). lia.
Qed.

Lemma slice_to_prefix n s : String.prefix (slice_to n s) s = true.
Proof.
  unfold slice_to. revert s. induction n as [|n IH]; intros [|c s]; simpl; try done.
  destruct (ascii_dec c c); [apply IH|done].
Qed.

(** The dictionary after one call, whatever its outcome. *)
Lemma show_rates_rates btn st :
  ∃ coins evs,
    exchange_rates (refresh btn st).2 =
      foldl (λ m c, ensure_entry c m) (exchange_rates st) coins ∧
    trace (refresh btn st).2 = trace st ++ evs ∧
    requests evs = map request_for coins.
Proof.
  rewrite show_rates_eq.
  destruct (for_in World COIN_LIST body (cleared st)) as [[[]|e] st'] eqn:Hloop; simpl.
  - destruct (loop_ok _ _ _ Hloop) as (ts & Hc & _ & Hm & _ & Ht).
    exists COIN_LIST, (EvChildren [] :: turn_events [] ts).
    split; [exact Hm|]. split; [rewrite Ht; simpl; by rewrite <- app_assoc|].
    simpl. by rewrite requests_turn_events, Hc.
  - destruct (loop_raise _ _ _ _ Hloop)
      as (ts & c & post & resp & _ & _ & _ & Hm & _ & Ht).
    exists (map turn_coin ts ++ [c]),
           (EvChildren [] :: turn_events [] ts ++ [EvLoad (request_for c) resp]).
    split; [exact Hm|]. split; [rewrite Ht; simpl; by rewrite <- !app_assoc|].
    simpl. by rewrite requests_app, requests_turn_events, map_app.
Qed.

(** A call that returns made one turn per symbol of [COIN_LIST]. *)
Lemma show_rates_ok btn st st' :
  refresh btn st = (Ok tt, st') →
  ∃ ts : list Turn,
    map turn_coin ts = COIN_LIST ∧
    Forall (turn_ok str api) ts ∧
    grid_children st' = map turn_card ts ∧
    trace st' = trace st ++ EvChildren [] :: turn_events [] ts.
Proof.
  rewrite show_rates_eq. intros Hloop.
  destruct (loop_ok _ _ _ Hloop) as (ts & Hc & Hok & _ & Hg & Ht).
  exists ts. simpl in Hg, Ht. rewrite <- app_assoc in Ht. done.
Qed.

(** A call that returns sent one request per symbol, in list order. *)
Lemma show_rates_ok_requests btn st st' :
  refresh btn st = (Ok tt, st') →
  requests (trace st') = requests (trace st) ++ map request_for COIN_LIST.
Proof.
  intros Hrun. destruct (show_rates_ok _ _ _ Hrun) as (ts & Hc & _ & _ & Ht).
  rewrite Ht, requests_app. simpl. by rewrite requests_turn_events, Hc.
Qed.

(** Two loops over the same symbols that start from the same grid and
    receive the same responses end alike. *)
Lemma loop_same_responses coins sa sb evsa evsb :
  grid_children sa = grid_children sb →
  trace (for_in World coins body sa).2 = trace sa ++ evsa →
  trace (for_in World coins body sb).2 = trace sb ++ evsb →
  responses evsa = responses evsb →
  (for_in World coins body sa).1 = (for_in World coins body sb).1 ∧
  grid_children (for_in World coins body sa).2 =
    grid_children (for_in World coins body sb).2.
Proof.
  revert sa sb evsa evsb.
  induction coins as [|coin coins IH]; intros sa sb evsa evsb Hg; [done|].
  cbn [for_in]. unfold bind. rewrite !show_rates_body_eq. cbv zeta.
  set (ra := (crypto_load (request_for coin) (world sa)).1).
  set (rb := (crypto_load (request_for coin) (world sb)).1).
  destruct (render api coin (shown str ra)) as [ha|ea] eqn:Ha;
    destruct (render api coin (shown str rb)) as [hb|eb] eqn:Hb.
  - set (sa1 := mkState (ensure_entry coin (exchange_rates sa)) _ _ _).
    set (sb1 := mkState (ensure_entry coin (exchange_rates sb)) _ _ _).
    destruct (loop_trace_app coins sa1) as [ea' Ha'].
    destruct (loop_trace_app coins sb1) as [eb' Hb'].
    intros Hta Htb Hresp. rewrite Ha' in Hta. rewrite Hb' in Htb.
    unfold sa1 in Hta. unfold sb1 in Htb. cbn [trace] in Hta, Htb.
    rewrite <- !app_assoc in Hta, Htb.
    apply app_inv_head in Hta. apply app_inv_head in Htb. subst evsa evsb.
    cbn [app responses] in Hresp. injection Hresp as Hr Hresp.
    assert (ha = hb) as -> by congruence.
    apply (IH sa1 sb1 ea' eb'); [|done|done|done].
    unfold sa1, sb1. cbn [grid_children]. by rewrite Hg.
  - set (sa1 := mkState (ensure_entry coin (exchange_rates sa)) _ _ _).
    destruct (loop_trace_app coins sa1) as [ea' Ha'].
    cbn [snd trace]. intros Hta Htb Hresp. rewrite Ha' in Hta.
    unfold sa1 in Hta. cbn [trace] in Hta. rewrite <- !app_assoc in Hta.
    apply app_inv_head in Hta. apply app_inv_head in Htb. subst evsa evsb.
    cbn [app responses] in Hresp. injection Hresp as Hr _. congruence.
  - set (sb1 := mkState (ensure_entry coin (exchange_rates sb)) _ _ _).
    destruct (loop_trace_app coins sb1) as [eb' Hb'].
    cbn [snd trace]. intros Hta Htb Hresp. rewrite Hb' in Htb.
    unfold sb1 in Htb. cbn [trace] in Htb. rewrite <- !app_assoc in Htb.
    apply app_inv_head in Hta. apply app_inv_head in Htb. subst evsa evsb.
    cbn [app responses] in Hresp. injection Hresp as Hr _. congruence.
  - cbn [fst snd trace grid_children]. intros Hta Htb Hresp.
    apply app_inv_head in Hta. apply app_inv_head in Htb. subst evsa evsb.
    cbn [responses] in Hresp. injection Hresp as Hr.
    split; [congruence | exact Hg].
Qed.

(** The same for two calls of [show_rates], which clear the grid first. *)
Lemma loop_cleared_same coins (sa sb : State) evsa evsb :
  trace (for_in World coins body (cleared sa)).2 = trace sa ++ evsa →
  trace (for_in World coins body (cleared sb)).2 = trace sb ++ evsb →
  responses evsa = responses evsb →
  grid_children (for_in World coins body (cleared sb)).2 =
    grid_children (for_in World coins body (cleared sa)).2 ∧
  (for_in World coins body (cleared sb)).1 =
    (for_in World coins body (cleared sa)).1.
Proof.
  intros Ha Hb Hresp.
  destruct (loop_trace_app coins (cleared sa)) as [ea Ha'].
  destruct (loop_trace_app coins (cleared sb)) as [eb Hb'].
  rewrite Ha' in Ha. rewrite Hb' in Hb. cbn [cleared trace] in Ha, Hb.
  rewrite <- app_assoc in Ha, Hb.
  apply app_inv_head in Ha. apply app_inv_head in Hb. subst evsa evsb.
  cbn [app responses] in Hresp.
  destruct (loop_same_responses coins (cleared sb) (cleared sa) eb ea)
    as [Ho Hg]; done.
Qed.

(** A fetch that raises is answered by the handler: the body goes on to
    construct the card with the placeholder price and the neutral color. *)
Lemma show_rates_body_fetch_raises coin st e :
  (crypto_load (request_for coin) (world st)).1 = Raise e →
  try_rate coin st =
    (Ok ("-------"%string, neutral_color),
     after_load coin (Raise e) (crypto_load (request_for coin) (world st)).2 st).
Proof. intros He. rewrite try_get_exchange_rate_eq, He. reflexivity. Qed.

(** ** The claims *)

(** C3. When the fetch for a symbol succeeds, the frame it loaded has a
    Close column that ends with two closes, [prior] then [latest], and
    the color returned for the card is [up_color] if [latest > prior],
    [down_color] if [latest < prior], and [neutral_color] otherwise, in
    particular when the two closes are equal. *)
Theorem get_exchange_rate_color coin days st p c :
  (get_rate coin days st).1 = Ok (p, c) →
  ∃ df front prior latest,
    (crypto_load (request_for coin) (world st)).1 = Ok df ∧
    getitem df "Close" = Ok (front ++ [prior; latest]) ∧
    (float_gt latest prior = true → c = up_color) ∧
    (float_lt latest prior = true → c = down_color) ∧
    (float_gt latest prior = false → float_lt latest prior = false →
     c = neutral_color) ∧
    (PrimFloat.eqb latest prior = true → c = neutral_color) ∧
    (latest = prior → c = neutral_color).
Proof.
  rewrite get_exchange_rate_eq. simpl.
  destruct (crypto_load _ _).1 as [df|e]; [|discriminate].
  unfold rate_of_frame, close_iloc.
  destruct (getitem df "Close") as [s|e] eqn:Hcol; [|discriminate].
  destruct (iloc s (-1)) as [latest|e] eqn:H1; [|discriminate].
  destruct (iloc s (-2)) as [prior|e] eqn:H2; [|discriminate].
  intros [= <- <-].
  destruct (iloc_last_two_inv _ _ _ H1 H2) as [front ->].
  exists df, front, prior, latest.
  split; [reflexivity|]. split; [exact Hcol|].
  split; [by intros ->|].
  split; [intros Hlt; by rewrite (float_lt_not_gt _ _ Hlt), Hlt|].
  split; [by intros -> ->|].
  split; [by intros [-> ->]%float_eqb_neither|].
  intros ->. unfold float_gt. fold (float_lt prior prior).
  by rewrite float_lt_irrefl.
Qed.

(** C4. When the fetch for a symbol succeeds, the price returned for
    the card is the first 7 characters of [str] of the latest close, the
    last value of the Close column: the string is cut, not rounded, and a
    latest close printed as 12345.6789 is shown as 12345.6. *)
Theorem get_exchange_rate_price coin days st p c :
  (get_rate coin days st).1 = Ok (p, c) →
  ∃ df front latest,
    (crypto_load (request_for coin) (world st)).1 = Ok df ∧
    getitem df "Close" = Ok (front ++ [latest]) ∧
    p = slice_to 7 (str latest) ∧
    String.prefix p (str latest) = true ∧
    (String.length p ≤ 7)%nat ∧
    (str latest = "12345.6789"%string → p = "12345.6"%string).
Proof.
  rewrite get_exchange_rate_eq. simpl.
  destruct (crypto_load _ _).1 as [df|e]; [|discriminate].
  unfold rate_of_frame, close_iloc.
  destruct (getitem df "Close") as [s|e] eqn:Hcol; [|discriminate].
  destruct (iloc s (-1)) as [latest|e] eqn:H1; [|discriminate].
  destruct (iloc s (-2)) as [prior|e] eqn:H2; [|discriminate].
  intros [= <- <-].
  destruct (iloc_last_two_inv _ _ _ H1 H2) as [front ->].
  exists df, (front ++ [prior]), latest.
  split; [reflexivity|]. split; [by rewrite <- app_assoc|].
  split; [reflexivity|]. split; [apply slice_to_prefix|].
  split; [apply slice_to_length|].
  by intros ->.
Qed.

(** C9. No call of [show_rates] removes a key of [exchange_rates]: an
    entry present before any number of calls, one after the other, is
    still there after them, with the value it had, whatever the data
    source answers and whether or not the calls return. *)
Theorem refreshes_keep_entries n st coin e :
  exchange_rates st !! coin = Some e →
  exchange_rates (refreshes crypto_load str api n st) !! coin = Some e.
Proof.
  intros Hin. induction n as [|n IH]; [exact Hin|].
  cbn [refreshes].
  destruct (show_rates_rates tt (refreshes crypto_load str api n st))
    as (coins & evs & -> & _ & _).
  rewrite ensure_entries_lookup, IH. by case_decide.
Qed.

(** C1, as the code has it. Once [show_rates] has processed a symbol,
    that is, has sent the request for it, [exchange_rates] holds under
    that symbol the entry it held before the call when there was one,
    and the entry [{"price": None, "color": None}] otherwise: the price
    and color computed for the card are not stored, and no entry is
    overwritten. *)
Theorem show_rates_entry btn st evs s :
  trace (refresh btn st).2 = trace st ++ evs →
  request_for s ∈ requests evs →
  exchange_rates (refresh btn st).2 !! s =
    Some (default empty_entry (exchange_rates st !! s)).
Proof.
  intros Htr Hreq.
  destruct (show_rates_rates btn st) as (coins & evs' & -> & Htr' & Hrq).
  rewrite Htr' in Htr. apply app_inv_head in Htr. subst evs'.
  rewrite Hrq in Hreq. apply request_for_elem_of in Hreq.
  rewrite ensure_entries_lookup. by rewrite decide_True.
Qed.

(** C5. After a call of [show_rates] that returns, the grid holds 48
    cards, one per symbol of [COIN_LIST] and in the order of the list,
    whose symbols are pairwise distinct: the card at a symbol's position
    is the price card constructed with that symbol as its ticker, from the
    response the call received at that position. *)
Theorem show_rates_one_card_per_symbol btn st st' :
  refresh btn st = (Ok tt, st') →
  length COIN_LIST = 48%nat ∧
  NoDup COIN_LIST ∧
  length (grid_children st') = length COIN_LIST ∧
  ∃ evs,
    trace st' = trace st ++ evs ∧
    ∀ i coin card,
      COIN_LIST !! i = Some coin →
      grid_children st' !! i = Some card →
      ∃ resp,
        responses evs !! i = Some resp ∧
        render api coin (shown str resp) = Ok (value card).
Proof.
  intros Hrun. destruct (show_rates_ok _ _ _ Hrun) as (ts & Hc & Hok & Hg & Ht).
  split; [apply COIN_LIST_length|]. split; [apply COIN_LIST_NoDup|].
  split; [by rewrite Hg, <- Hc, !length_map|].
  exists (EvChildren [] :: turn_events [] ts). split; [exact Ht|].
  intros i coin card Hcoin Hcard.
  rewrite <- Hc in Hcoin. rewrite Hg in Hcard.
  cbn [responses]. rewrite responses_turn_events.
  apply list_lookup_fmap_Some in Hcoin as (t & -> & Ht1).
  apply list_lookup_fmap_Some in Hcard as (t' & -> & Ht2).
  assert (t' = t) as -> by congruence.
  exists t.1.2. split.
  - by apply (list_lookup_fmap_Some_2 (λ t0 : Turn, t0.1.2)).
  - rewrite Forall_forall in Hok. apply Hok.
    by apply list_elem_of_lookup_2 with i.
Qed.

(** C6, as the code has it. During a call of [show_rates] that returns,
    [grid.children] is assigned 49 times: the empty sequence first, then,
    after the request of each symbol has been answered, the cards built
    so far with that symbol's card appended.  Every prefix of the final
    card sequence is shown in turn, the complete sequence last. *)
Theorem show_rates_grid_writes btn st st' :
  refresh btn st = (Ok tt, st') →
  ∃ (ts : list Turn) evs,
    map turn_coin ts = COIN_LIST ∧
    trace st' = trace st ++ evs ∧
    evs = EvChildren [] :: turn_events [] ts ∧
    children_writes evs =
      map (λ k, take k (grid_children st')) (seq 0 49) ∧
    last (children_writes evs) = Some (grid_children st').
Proof.
  intros Hrun. destruct (show_rates_ok _ _ _ Hrun) as (ts & Hc & _ & Hg & Ht).
  exists ts, (EvChildren [] :: turn_events [] ts).
  assert (Hlen : length ts = 48%nat)
    by (rewrite <- (length_map turn_coin), Hc; apply COIN_LIST_length).
  assert (Hw : children_writes (EvChildren [] :: turn_events [] ts) =
               map (λ k, take k (grid_children st')) (seq 0 49)).
  { simpl children_writes. rewrite children_writes_turn_events, Hlen, Hg.
    change (seq 0 49) with (0%nat :: seq 1 48). simpl map at 3.
    rewrite take_0. reflexivity. }
  split; [exact Hc|]. split; [exact Ht|]. split; [reflexivity|].
  split; [exact Hw|]. rewrite Hw.
  change (seq 0 49) with (seq 0 48 ++ [48%nat]).
  rewrite map_app. simpl (map _ [48%nat]).
  rewrite last_snoc. f_equal. apply take_ge.
  rewrite Hg, length_map. lia.
Qed.

(** C7. Two calls of [show_rates] in a row during which the data source
    gives the same sequence of responses show the same grid and end the
    same way, whatever [exchange_rates] held before. *)
Theorem show_rates_twice btn st evs1 evs2 :
  let first := refresh btn st in
  let second := refresh btn first.2 in
  trace first.2 = trace st ++ evs1 →
  trace second.2 = trace first.2 ++ evs2 →
  responses evs1 = responses evs2 →
  grid_children second.2 = grid_children first.2 ∧ second.1 = first.1.
Proof.
  intros first second. subst first second. rewrite !show_rates_eq.
  apply loop_cleared_same.
Qed.

(** C10. The handler of [show_rates] guards the fetch only.  When the
    card-construction expression raises for a symbol, after the turns of
    the symbols before it, the exception leaves [show_rates]: the grid
    keeps the cards built before, one per earlier symbol, no request is
    sent for a later symbol and no entry is made for one.  The [try]
    statement itself never raises.  With the name [api] unbound the
    exception is the [NameError] for that name. *)
Theorem show_rates_card_error btn st pre coin post st1 e :
  COIN_LIST = pre ++ coin :: post →
  for_in World pre body (cleared st) = (Ok tt, st1) →
  render api coin (shown str (crypto_load (request_for coin) (world st1)).1)
    = Raise e →
  (refresh btn st).1 = Raise e ∧
  grid_children (refresh btn st).2 = grid_children st1 ∧
  length (grid_children (refresh btn st).2) = length pre ∧
  requests (trace (refresh btn st).2) =
    requests (trace st) ++ map request_for (pre ++ [coin]) ∧
  exchange_rates (refresh btn st).2 =
    foldl (λ m c, ensure_entry c m) (exchange_rates st) (pre ++ [coin]) ∧
  (∀ s st0, ∃ pc, (try_rate s st0).1 = Ok pc) ∧
  (api = None → e = NameError "api").
Proof.
  intros Hsplit Hpre Hr. rewrite show_rates_eq, Hsplit, for_in_app, Hpre.
  cbn [for_in]. unfold bind. rewrite show_rates_body_eq. cbv zeta. rewrite Hr.
  destruct (loop_ok _ _ _ Hpre) as (ts & Hc & _ & Hm & Hg & Ht). simpl.
  split; [reflexivity|]. split; [reflexivity|]. simpl in Hg.
  split; [by rewrite Hg, length_map, <- (length_map turn_coin), Hc|].
  split.
  - rewrite Ht. simpl. rewrite <- !app_assoc, !requests_app. simpl.
    by rewrite requests_turn_events, Hc, map_app.
  - cbn [cleared exchange_rates] in Hm.
    split; [rewrite foldl_app; cbn [foldl]; by rewrite <- Hm|].
    split; [intros s st0; rewrite try_get_exchange_rate_eq; eauto|].
    intros Hapi. rewrite Hapi in Hr. simpl in Hr. congruence.
Qed.

End Statements.

(** ** The notebook as it is written: the name [api] is unbound *)

(** The first turn of the loop stops at the card-construction expression. *)
Lemma show_rates_api_unbound {World} load str btn (st : State World) :
  show_rates World load str None btn st =
    (Raise (NameError "api"),
     mkState (ensure_entry "BTC" (exchange_rates st)) []
             (load (request_for "BTC") (world st)).2
             (trace st ++ [EvChildren [];
                           EvLoad (request_for "BTC")
                                  (load (request_for "BTC") (world st)).1])).
Proof.
  rewrite show_rates_eq. destruct COIN_LIST_head as [post ->].
  cbn [for_in]. unfold bind. rewrite show_rates_body_eq. simpl.
  by rewrite <- app_assoc.
Qed.

(** C8, on the notebook as written. Whatever the data source answers, a
    call of [show_rates] with the name [api] unbound sends the request for
    BTC and no other: one request, not one per symbol of [COIN_LIST]. *)
Theorem show_rates_api_unbound_requests {World} load str btn (st : State World) :
  requests (trace (show_rates World load str None btn st).2) =
    requests (trace st) ++ [request_for "BTC"].
Proof.
  rewrite show_rates_api_unbound. simpl. rewrite requests_app. reflexivity.
Qed.

(** C2, on the notebook as written. With the data source down and the name
    [api] unbound, the handler answers the failed fetch for BTC, and the
    call then raises [NameError] at the card construction: the grid is left
    empty, without a placeholder card, and no later symbol is processed. *)
Theorem show_rates_fetch_fails_api_unbound :
  show_rates unit failing_load sample_str None tt initial_state =
    (Raise (NameError "api"),
     mkState {[ "BTC"%string := empty_entry ]} [] tt
             [EvChildren [];
              EvLoad (request_for "BTC")
                     (Raise (Exception "network unreachable"))]).
Proof. vm_compute. reflexivity. Qed.

(** ** Runs on the sample data source *)

(** Closes [10.0, 12.0]: up, and the price is that of the latest close. *)
Example get_exchange_rate_up :
  (get_exchange_rate unit sample_load sample_str "BTC" 2 initial_state).1
  = Ok ("12.0"%string, up_color).
Proof. vm_compute. reflexivity. Qed.

(** Closes [12.0, 10.0]: down. *)
Example get_exchange_rate_down :
  (get_exchange_rate unit sample_load sample_str "ETH" 2 initial_state).1
  = Ok ("10.0"%string, down_color).
Proof. vm_compute. reflexivity. Qed.

(** Closes [10.0, 10.0]: neutral. *)
Example get_exchange_rate_neutral :
  (get_exchange_rate unit sample_load sample_str "USDT" 2 initial_state).1
  = Ok ("10.0"%string, neutral_color).
Proof. vm_compute. reflexivity. Qed.

(** An empty frame has no Close column, a frame of one row no [iloc[-2]]. *)
Example get_exchange_rate_no_column :
  (get_exchange_rate unit sample_load sample_str "USDC" 2 initial_state).1
  = Raise (KeyError "Close").
Proof. vm_compute. reflexivity. Qed.

Example get_exchange_rate_one_row :
  (get_exchange_rate unit sample_load sample_str "XRP" 2 initial_state).1
  = Raise IndexError.
Proof. vm_compute. reflexivity. Qed.

(** With [api] bound, a failed fetch gives a placeholder card and the
    symbols after it get their cards. *)
Example sample_refresh_cards :
  (sample_refresh initial_state).1 = Ok tt ∧
  take 7 (map value (grid_children (sample_refresh initial_state).2)) =
    ["BTC|12.0|up_color"; "ETH|10.0|down_color"; "USDT|10.0|neutral_color";
     "BNB|-------|neutral_color"; "USDC|-------|neutral_color";
     "XRP|-------|neutral_color"; "LUNA|12345.6|up_color"]%string.
Proof. vm_compute. split; reflexivity. Qed.

(** *** Witnesses *)

Lemma get_exchange_rate_color_witness :
  ∃ df front prior latest,
    (sample_load (request_for "ETH") tt).1 = Ok df ∧
    getitem df "Close" = Ok (front ++ [prior; latest]) ∧
    (float_gt latest prior = true → down_color = up_color) ∧
    (float_lt latest prior = true → down_color = down_color) ∧
    (float_gt latest prior = false → float_lt latest prior = false →
     down_color = neutral_color) ∧
    (PrimFloat.eqb latest prior = true → down_color = neutral_color) ∧
    (latest = prior → down_color = neutral_color).
Proof.
  apply (get_exchange_rate_color sample_load sample_str "ETH" 2 initial_state
           "10.0" down_color).
  vm_compute. reflexivity.
Defined.

Lemma get_exchange_rate_price_witness :
  ∃ df front latest,
    (sample_load (request_for "LUNA") tt).1 = Ok df ∧
    getitem df "Close" = Ok (front ++ [latest]) ∧
    "12345.6"%string = slice_to 7 (sample_str latest) ∧
    String.prefix "12345.6" (sample_str latest) = true ∧
    (String.length "12345.6" ≤ 7)%nat ∧
    (sample_str latest = "12345.6789"%string → "12345.6"%string = "12345.6"%string).
Proof.
  apply (get_exchange_rate_price sample_load sample_str "LUNA" 2 initial_state
           "12345.6" up_color).
  vm_compute. reflexivity.
Defined.

Lemma refreshes_keep_entries_witness :
  exchange_rates
    (refreshes sample_load sample_str (Some sample_price_card) 2 stale_state)
    !! "BTC"%string
  = Some (mkEntry (Some "9.0"%string) (Some down_color)).
Proof.
  apply (refreshes_keep_entries sample_load sample_str (Some sample_price_card)
           2 stale_state "BTC").
  vm_compute. reflexivity.
Defined.

Lemma show_rates_entry_witness :
  exchange_rates (sample_refresh initial_state).2 !! "ETH"%string
  = Some (default empty_entry (exchange_rates initial_state !! "ETH"%string)).
Proof.
  apply (show_rates_entry sample_load sample_str (Some sample_price_card) tt
           initial_state (trace (sample_refresh initial_state).2) "ETH").
  - vm_compute. reflexivity.
  - apply (bool_decide_unpack _). vm_compute. exact I.
Defined.

Lemma show_rates_one_card_per_symbol_witness :
  length COIN_LIST = 48%nat ∧
  NoDup COIN_LIST ∧
  length (grid_children (sample_refresh initial_state).2) = length COIN_LIST ∧
  ∃ evs,
    trace (sample_refresh initial_state).2 = trace initial_state ++ evs ∧
    ∀ i coin card,
      COIN_LIST !! i = Some coin →
      grid_children (sample_refresh initial_state).2 !! i = Some card →
      ∃ resp,
        responses evs !! i = Some resp ∧
        render (Some sample_price_card) coin (shown sample_str resp)
        = Ok (value card).
Proof.
  apply (show_rates_one_card_per_symbol sample_load sample_str
           (Some sample_price_card) tt initial_state).
  vm_compute. reflexivity.
Defined.

Lemma show_rates_grid_writes_witness :
  ∃ (ts : list Turn) evs,
    map turn_coin ts = COIN_LIST ∧
    trace (sample_refresh initial_state).2 = trace initial_state ++ evs ∧
    evs = EvChildren [] :: turn_events [] ts ∧
    children_writes evs =
      map (λ k, take k (grid_children (sample_refresh initial_state).2))
          (seq 0 49) ∧
    last (children_writes evs) = Some (grid_children (sample_refresh initial_state).2).
Proof.
  apply (show_rates_grid_writes sample_load sample_str
           (Some sample_price_card) tt initial_state).
  vm_compute. reflexivity.
Defined.

Lemma show_rates_twice_witness :
  grid_children (sample_refresh (sample_refresh stale_state).2).2 =
    grid_children (sample_refresh stale_state).2 ∧
  (sample_refresh (sample_refresh stale_state).2).1 =
    (sample_refresh stale_state).1.
Proof.
  apply (show_rates_twice sample_load sample_str (Some sample_price_card) tt
           stale_state
           (trace (sample_refresh stale_state).2)
           (drop (length (trace (sample_refresh stale_state).2))
                 (trace (sample_refresh (sample_refresh stale_state).2).2))).
  - vm_compute. reflexivity.
  - vm_compute. reflexivity.
  - vm_compute. reflexivity.
Defined.

Lemma show_rates_card_error_witness :
  (notebook_refresh initial_state).1 = Raise (NameError "api") ∧
  grid_children (notebook_refresh initial_state).2 = [] ∧
  length (grid_children (notebook_refresh initial_state).2) = 0%nat ∧
  requests (trace (notebook_refresh initial_state).2) =
    [] ++ map request_for ([] ++ ["BTC"%string]) ∧
  exchange_rates (notebook_refresh initial_state).2 =
    foldl (λ m c, ensure_entry c m) ∅ ([] ++ ["BTC"%string]) ∧
  (∀ s st0, ∃ pc,
     (try_get_exchange_rate unit sample_load sample_str s st0).1 = Ok pc) ∧
  (@None PriceCard = None → NameError "api" = NameError "api").
Proof.
  apply (show_rates_card_error sample_load sample_str None tt initial_state
           [] "BTC" (tail COIN_LIST) (cleared initial_state) (NameError "api")).
  - vm_compute. reflexivity.
  - reflexivity.
  - reflexivity.
Defined.

(** *** Counterexamples *)

(** C1 as stated fails. The fetch for BTC gives the price 12.0 and the
    color up, and the card shows them; after the call [exchange_rates]
    holds for BTC the entry of two [None], or, when an earlier entry was
    there, that entry unchanged. *)
Lemma show_rates_entry_not_computed :
  (try_get_exchange_rate unit sample_load sample_str "BTC" initial_state).1
    = Ok ("12.0"%string, up_color) ∧
  (grid_children (sample_refresh initial_state).2) !! 0%nat
    = Some (mkHTML "BTC|12.0|up_color") ∧
  exchange_rates (sample_refresh initial_state).2 !! "BTC"%string
    = Some (mkEntry None None) ∧
  exchange_rates (sample_refresh initial_state).2 !! "BTC"%string
    ≠ Some (mkEntry (Some "12.0"%string) (Some up_color)) ∧
  exchange_rates (sample_refresh stale_state).2 !! "BTC"%string
    = Some (mkEntry (Some "9.0"%string) (Some down_color)) ∧
  exchange_rates (notebook_refresh initial_state).2 !! "BTC"%string
    = Some (mkEntry None None).
Proof.
  repeat split; try (vm_compute; reflexivity).
  vm_compute. discriminate.
Qed.

(** C6 as stated fails. In a call that returns, [grid.children] is
    assigned 49 times and not once; the second assignment shows a grid of
    one card while 47 symbols are still to be processed. *)
Lemma show_rates_grid_written_per_symbol :
  (sample_refresh initial_state).1 = Ok tt ∧
  length (grid_children (sample_refresh initial_state).2) = 48%nat ∧
  length (children_writes (trace (sample_refresh initial_state).2)) = 49%nat ∧
  children_writes (trace (sample_refresh initial_state).2) !! 1%nat
    = Some [mkHTML "BTC|12.0|up_color"] ∧
  children_writes (trace (sample_refresh initial_state).2)
    ≠ [grid_children (sample_refresh initial_state).2].
Proof.
  repeat split; try (vm_compute; reflexivity).
  vm_compute. discriminate.
Qed.

(** ** Beyond the claims: sessions, the data source, edge cases *)

(** A close that is not a number compares false both ways. *)
Lemma SFcompare_nan_inv x : SFcompare x x ≠ Some Eq → x = S754_nan.
Proof.
  destruct x as [s|s| |s m e]; simpl; try done.
  - by destruct s.
  - destruct s; rewrite Z.compare_refl; fold (Pos.compare m m);
      rewrite Pos.compare_refl; done.
Qed.

Lemma float_nan_unordered a b :
  PrimFloat.is_nan a = true →
  PrimFloat.ltb a b = false ∧ PrimFloat.ltb b a = false.
Proof.
  unfold PrimFloat.is_nan. rewrite FloatAxioms.eqb_spec, !FloatAxioms.ltb_spec.
  unfold SFeqb, SFltb. intros Hnan.
  assert (Ha : Prim2SF a = S754_nan).
  { apply SFcompare_nan_inv. intros Heq. rewrite Heq in Hnan. discriminate. }
  rewrite Ha. simpl. by destruct (Prim2SF b).
Qed.

Section Session.

Context {World : Type}.
Variable crypto_load : Request → World → Result DataFrame * World.
Variable str : float → string.
Variable api : option PriceCard.

Abbreviation get_rate := (get_exchange_rate World crypto_load str).
Abbreviation try_rate := (try_get_exchange_rate World crypto_load str).
Abbreviation body := (show_rates_body World crypto_load str api).
Abbreviation refresh := (show_rates World crypto_load str api).

Local Open Scope nat_scope.

(** The notebook once its cells have run: [exchange_rates = {}] and
    [grid = ipw.GridBox([], layout=layout)], over a data source in state [w]. *)
Definition started (w : World) : State World := mkState ∅ [] w [].

(** The data source asked for the symbols of [coins], one after the other:
    its answers and the state it is left in. *)
Fixpoint ask (w : World) (coins : list string)
  : list (Result DataFrame) * World :=
  match coins with
  | [] => ([], w)
  | coin :: rest =>
      let (resp, w1) := crypto_load (request_for coin) w in
      let (resps, w2) := ask w1 rest in
      (resp :: resps, w2)
  end.

(** What a loop over [coins] has done when it ends, either way: it took
    the first [k] symbols in order. *)
Lemma loop_run coins (st : State World) :
  ∃ k evs,
    k ≤ length coins ∧
    trace (for_in World coins body st).2 = trace st ++ evs ∧
    requests evs = map request_for (take k coins) ∧
    responses evs = (ask (world st) (take k coins)).1 ∧
    world (for_in World coins body st).2 = (ask (world st) (take k coins)).2 ∧
    exchange_rates (for_in World coins body st).2 =
      foldl (λ m c, ensure_entry c m) (exchange_rates st) (take k coins) ∧
    match (for_in World coins body st).1 with
    | Ok _ =>
        k = length coins ∧
        length (grid_children (for_in World coins body st).2) =
          length (grid_children st) + k
    | Raise e =>
        1 ≤ k ∧
        length (grid_children (for_in World coins body st).2) + 1 =
          length (grid_children st) + k ∧
        ∃ coin resp,
          coins !! (k - 1) = Some coin ∧
          render api coin (shown str resp) = Raise e
    end.
Proof.
  revert st. induction coins as [|coin coins IH]; intros st.
  - exists 0, []. cbn. rewrite app_nil_r. repeat split; lia.
  - cbn [for_in]. unfold bind. rewrite show_rates_body_eq. cbv zeta.
    destruct (crypto_load (request_for coin) (world st)) as [resp w1] eqn:Hload.
    cbn [fst snd].
    destruct (render api coin (shown str resp)) as [html|e] eqn:Hr.
    + set (st1 := mkState _ _ _ _).
      destruct (IH st1) as (k & evs & Hk & Ht & Hq & Hp & Hw & Hm & Hout).
      exists (S k), (EvLoad (request_for coin) resp
                     :: EvChildren (grid_children st ++ [mkHTML html]) :: evs).
      cbn [take length ask]. rewrite Hload.
      cbn [st1 trace world exchange_rates grid_children] in Ht, Hp, Hw, Hm, Hout.
      destruct (ask w1 (take k coins)) as [resps w2]. cbn [fst snd] in *.
      split; [lia|]. split; [by rewrite Ht, <- !app_assoc|].
      split; [cbn; by rewrite Hq|]. split; [cbn; by rewrite Hp|].
      split; [exact Hw|]. split; [exact Hm|].
      rewrite length_app in Hout. cbn [length] in Hout.
      destruct (for_in World coins body st1).1 as [[]|e].
      * destruct Hout as [-> Hlen]. split; [done|]. lia.
      * destruct Hout as (Hk1 & Hlen & c & r & Hc & Hrc).
        split; [lia|]. split; [lia|].
        exists c, r. split; [|exact Hrc].
        replace (S k - 1) with (S (k - 1)) by lia. exact Hc.
    + exists 1, [EvLoad (request_for coin) resp].
      cbn [take length ask fst snd trace world exchange_rates grid_children].
      rewrite Hload. cbn.
      split; [lia|]. do 5 (split; [done|]).
      split; [lia|]. split; [lia|]. by exists coin, resp.
Qed.

(** The same for one call of [show_rates], which clears the grid first. *)
Lemma show_rates_run btn (st : State World) :
  ∃ k evs,
    1 ≤ k ≤ length COIN_LIST ∧
    trace (refresh btn st).2 = trace st ++ evs ∧
    requests evs = map request_for (take k COIN_LIST) ∧
    responses evs = (ask (world st) (take k COIN_LIST)).1 ∧
    world (refresh btn st).2 = (ask (world st) (take k COIN_LIST)).2 ∧
    exchange_rates (refresh btn st).2 =
      foldl (λ m c, ensure_entry c m) (exchange_rates st) (take k COIN_LIST) ∧
    match (refresh btn st).1 with
    | Ok _ =>
        k = length COIN_LIST ∧ length (grid_children (refresh btn st).2) = k
    | Raise e =>
        length (grid_children (refresh btn st).2) + 1 = k ∧
        ∃ coin resp,
          COIN_LIST !! (k - 1) = Some coin ∧
          render api coin (shown str resp) = Raise e
    end.
Proof.
  rewrite show_rates_eq.
  destruct (loop_run COIN_LIST (cleared st))
    as (k & evs & Hk & Ht & Hq & Hp & Hw & Hm & Hout).
  exists k, (EvChildren [] :: evs).
  cbn [cleared trace world exchange_rates grid_children] in Ht, Hp, Hw, Hm, Hout.
  rewrite <- app_assoc in Ht.
  pose proof COIN_LIST_length as Hn.
  change (length (@nil HTML)) with 0 in Hout.
  set (n := length COIN_LIST) in *.
  split.
  { destruct (for_in World COIN_LIST body (cleared st)).1;
      [destruct Hout as [Hkn _] | destruct Hout as (Hk1 & _)]; lia. }
  split; [exact Ht|]. split; [exact Hq|]. split; [exact Hp|].
  split; [exact Hw|]. split; [exact Hm|].
  destruct (for_in World COIN_LIST body (cleared st)).1.
  - destruct Hout as [Hkn Hlen]. split; [exact Hkn|lia].
  - destruct Hout as (_ & Hlen & Hc). split; [lia|exact Hc].
Qed.

(** *** [get_exchange_rate] *)




(** The pair the card is built from is what [get_exchange_rate] returned,
    and the placeholder when it raised. *)
Lemma shown_get_exchange_rate coin days (st : State World) :
  shown str (crypto_load (request_for coin) (world st)).1 =
    match (get_rate coin days st).1 with
    | Ok pc => pc
    | Raise _ => placeholder
    end.
Proof.
  rewrite get_exchange_rate_eq. cbn [fst]. unfold shown.
  by destruct (crypto_load _ _).1.
Qed.


(** X2. Whatever it returns or raises, [get_exchange_rate] sends one
    request, for its symbol with interval 1440 and source CCXT, and leaves
    [exchange_rates] and the grid as they were.  Its argument [days] has no
    effect on the request sent or on the result. *)
Theorem get_exchange_rate_one_request coin days days' (st : State World) :
  exchange_rates (get_rate coin days st).2 = exchange_rates st ∧
  grid_children (get_rate coin days st).2 = grid_children st ∧
  trace (get_rate coin days st).2 =
    trace st ++ [EvLoad (mkRequest coin "1440" "CCXT")
                        (crypto_load (mkRequest coin "1440" "CCXT") (world st)).1] ∧
  world (get_rate coin days st).2 =
    (crypto_load (mkRequest coin "1440" "CCXT") (world st)).2 ∧
  get_rate coin days' st = get_rate coin days st.
Proof. rewrite !get_exchange_rate_eq. done. Qed.

(** X3. When the latest or the prior close is not a number, both
    comparisons are false and the color is neutral; the price is still cut
    from [str] of the latest close. *)
Theorem get_exchange_rate_nan coin days (st : State World) df front prior latest :
  (crypto_load (request_for coin) (world st)).1 = Ok df →
  getitem df "Close" = Ok (front ++ [prior; latest]) →
  PrimFloat.is_nan latest = true ∨ PrimFloat.is_nan prior = true →
  (get_rate coin days st).1 = Ok (slice_to 7 (str latest), neutral_color).
Proof.
  intros Hload Hcol Hnan. rewrite get_exchange_rate_eq. cbn [fst].
  rewrite Hload. unfold rate_of_frame, close_iloc. rewrite Hcol.
  destruct (iloc_last_two front prior latest) as [-> ->].
  unfold float_gt, float_lt.
  destruct Hnan as [Hn|Hn];
    [destruct (float_nan_unordered latest prior Hn) as [H1 H2]
    |destruct (float_nan_unordered prior latest Hn) as [H2 H1]];
    by rewrite H2, H1.
Qed.


(** *** The loop body *)

(** X5. When the fetch for a symbol raises and the card construction
    returns, the loop body returns: it appends to the grid, after the cards
    already there, the card constructed with the price of seven dashes and
    the neutral color. *)
Theorem show_rates_body_placeholder coin (st : State World) e price_card html :
  (get_rate coin 2 st).1 = Raise e →
  api = Some price_card →
  price_card coin "-------"%string neutral_color = Ok html →
  (body coin st).1 = Ok tt ∧
  grid_children (body coin st).2 = grid_children st ++ [mkHTML html].
Proof.
  intros Hrate Hapi Hcard. rewrite show_rates_body_eq. cbv zeta.
  rewrite (shown_get_exchange_rate coin 2 st), Hrate.
  unfold render. rewrite Hapi. cbn [placeholder fst snd]. by rewrite Hcard.
Qed.

(** X6. When the fetch for a symbol returns a price and a color and the
    card construction returns, the loop body returns: it appends to the
    grid, after the cards already there, the card constructed with that
    symbol, that price and that color, and makes the dictionary entry of
    the symbol if there was none. *)
Theorem show_rates_body_card coin (st : State World) p c price_card html :
  (get_rate coin 2 st).1 = Ok (p, c) →
  api = Some price_card →
  price_card coin p c = Ok html →
  (body coin st).1 = Ok tt ∧
  grid_children (body coin st).2 = grid_children st ++ [mkHTML html] ∧
  exchange_rates (body coin st).2 = ensure_entry coin (exchange_rates st).
Proof.
  intros Hrate Hapi Hcard. rewrite show_rates_body_eq. cbv zeta.
  rewrite (shown_get_exchange_rate coin 2 st), Hrate.
  unfold render. rewrite Hapi. cbn [fst snd]. by rewrite Hcard.
Qed.

(** *** One call of [show_rates] *)

(** X7. A call of [show_rates], whether it returns or raises, sends its
    requests for an initial segment of [COIN_LIST], in the order of the
    list, without a gap or a repeat, and for BTC at least.  When it
    returns, the segment is the whole list and the grid holds as many
    cards as requests were sent; when it raises, the grid holds one card
    fewer. *)
Theorem show_rates_progress btn (st : State World) :
  ∃ k evs,
    1 ≤ k ≤ 48 ∧
    trace (refresh btn st).2 = trace st ++ evs ∧
    requests evs = map request_for (take k COIN_LIST) ∧
    match (refresh btn st).1 with
    | Ok _ => k = 48 ∧ length (grid_children (refresh btn st).2) = 48
    | Raise _ => length (grid_children (refresh btn st).2) + 1 = k
    end.
Proof.
  destruct (show_rates_run btn st) as (k & evs & Hk & Ht & Hq & _ & _ & _ & Hout).
  rewrite COIN_LIST_length in Hk. exists k, evs.
  split; [exact Hk|]. split; [exact Ht|]. split; [exact Hq|].
  destruct (refresh btn st).1.
  - destruct Hout as [Hkn Hlen]. rewrite COIN_LIST_length in Hkn. lia.
  - by destruct Hout as [Hlen _].
Qed.

(** X8. When the data source is asked, it is asked once per processed
    symbol and in sequence: each request is answered in the state the
    answer before left the data source in, the responses of the call are
    those answers, and the data source ends in the state the last answer
    left.  No request is retried. *)
Theorem show_rates_asks_in_sequence btn (st : State World) :
  ∃ k evs,
    trace (refresh btn st).2 = trace st ++ evs ∧
    length (requests evs) = k ∧
    responses evs = (ask (world st) (take k COIN_LIST)).1 ∧
    world (refresh btn st).2 = (ask (world st) (take k COIN_LIST)).2.
Proof.
  destruct (show_rates_run btn st) as (k & evs & Hk & Ht & Hq & Hp & Hw & _).
  exists k, evs. split; [exact Ht|]. split; [|by split].
  rewrite Hq, length_map, length_take. lia.
Qed.

(** X9. With the name [api] bound to a [price_card] that always returns,
    a call of [show_rates] returns, whatever the data source answers or
    raises. *)
Theorem show_rates_returns btn (st : State World) price_card :
  api = Some price_card →
  (∀ ticker p c, ∃ html, price_card ticker p c = Ok html) →
  (refresh btn st).1 = Ok tt.
Proof.
  intros Hapi Htotal.
  destruct (show_rates_run btn st) as (k & evs & _ & _ & _ & _ & _ & _ & Hout).
  destruct (refresh btn st).1 as [[]|e]; [done|].
  destruct Hout as (_ & coin & resp & _ & Hr).
  unfold render in Hr. rewrite Hapi in Hr.
  destruct (Htotal coin (shown str resp).1 (shown str resp).2) as [html Hh].
  congruence.
Qed.

(** X10. A call of [show_rates] changes [exchange_rates] at a key only by
    giving a symbol of [COIN_LIST] that had no entry the entry of two
    [None]; every other key keeps what it had, or stays absent. *)
Theorem show_rates_rates_change btn (st : State World) s :
  exchange_rates (refresh btn st).2 !! s = exchange_rates st !! s ∨
  (exchange_rates st !! s = None ∧
   exchange_rates (refresh btn st).2 !! s = Some empty_entry ∧
   s ∈ COIN_LIST).
Proof.
  destruct (show_rates_run btn st) as (k & evs & _ & _ & _ & _ & _ & -> & _).
  rewrite ensure_entries_lookup. case_decide as Hin; [|by left].
  destruct (exchange_rates st !! s) as [e0|]; [by left|right].
  split; [done|]. split; [done|]. by apply (subseteq_take k).
Qed.

(** *** Sessions *)

Lemma show_rates_rates_full (st : State World) :
  (∀ s, s ∈ COIN_LIST → is_Some (exchange_rates st !! s)) →
  exchange_rates (refresh tt st).2 = exchange_rates st.
Proof.
  intros Hfull.
  destruct (show_rates_run tt st) as (k & evs & _ & _ & _ & _ & _ & -> & _).
  apply map_eq. intros s. rewrite ensure_entries_lookup.
  case_decide as Hin; [|done].
  destruct (Hfull s) as [e0 ->]; [by apply (subseteq_take k)|done].
Qed.

(** X11. Once a call of [show_rates] has returned, [exchange_rates] has
    an entry for every symbol of [COIN_LIST], and no later call, returning
    or not, changes the dictionary. *)
Theorem show_rates_rates_settled btn (st st1 : State World) n :
  refresh btn st = (Ok tt, st1) →
  (∀ s, s ∈ COIN_LIST → is_Some (exchange_rates st1 !! s)) ∧
  exchange_rates (refreshes crypto_load str api n st1) = exchange_rates st1.
Proof.
  intros Hrun.
  assert (Hfull : ∀ s, s ∈ COIN_LIST → is_Some (exchange_rates st1 !! s)).
  { intros s Hs.
    destruct (show_rates_run btn st) as (k & evs & _ & _ & _ & _ & _ & Hm & Hout).
    rewrite Hrun in Hm, Hout. cbn [fst snd] in Hm, Hout.
    destruct Hout as [-> _]. rewrite take_ge in Hm by done.
    rewrite Hm, ensure_entries_lookup, decide_True by done. eauto. }
  split; [exact Hfull|].
  induction n as [|n IH]; [done|]. cbn [refreshes].
  rewrite show_rates_rates_full; [exact IH|]. by rewrite IH.
Qed.

(** X12. From the notebook as its cells leave it, after any number of
    clicks, every entry of [exchange_rates] is the entry of two [None] and
    its key is a symbol of [COIN_LIST]: the dictionary never holds a price
    or a color. *)
Theorem session_entries_empty n w s e :
  exchange_rates (refreshes crypto_load str api n (started w)) !! s = Some e →
  e = empty_entry ∧ s ∈ COIN_LIST.
Proof.
  revert s e. induction n as [|n IH]; intros s e.
  - cbn [refreshes started exchange_rates]. by rewrite lookup_empty.
  - cbn [refreshes].
    destruct (show_rates_run tt (refreshes crypto_load str api n (started w)))
      as (k & evs & _ & _ & _ & _ & _ & -> & _).
    rewrite ensure_entries_lookup. case_decide as Hin; [|apply IH].
    destruct (exchange_rates _ !! s) as [e0|] eqn:Hold.
    + intros [= <-]. by apply IH.
    + intros [= <-]. split; [done|]. by apply (subseteq_take k).
Qed.

(** X13. From the notebook as its cells leave it, after any number of
    clicks, the grid holds at most 48 cards: the cards of earlier clicks do
    not pile up. *)
Theorem session_grid_bounded n w :
  length (grid_children (refreshes crypto_load str api n (started w))) ≤ 48.
Proof.
  destruct n as [|n]; [cbn; lia|]. cbn [refreshes].
  destruct (show_rates_run tt (refreshes crypto_load str api n (started w)))
    as (k & evs & Hk & _ & _ & _ & _ & _ & Hout).
  rewrite COIN_LIST_length in Hk.
  destruct (show_rates _ _ _ _ _ _).1; [destruct Hout as [_ Hlen]|destruct Hout as [Hlen _]]; lia.
Qed.

End Session.

(** *** Runs for the properties beyond the claims *)

(** A data source whose latest close is not a number. *)
Definition nan_load (req : Request) (w : unit) : Result DataFrame * unit :=
  (Ok (sample_frame [10%float; PrimFloat.nan]), w).

Lemma get_exchange_rate_nan_witness :
  (get_exchange_rate unit nan_load sample_str "BTC" 2 initial_state).1
  = Ok (slice_to 7 (sample_str PrimFloat.nan), neutral_color).
Proof.
  apply (get_exchange_rate_nan nan_load sample_str "BTC" 2 initial_state
           (sample_frame [10%float; PrimFloat.nan]) [] 10%float PrimFloat.nan).
  - reflexivity.
  - reflexivity.
  - left. reflexivity.
Defined.

Lemma show_rates_body_placeholder_witness :
  (show_rates_body unit sample_load sample_str (Some sample_price_card)
     "BNB" stale_state).1 = Ok tt ∧
  grid_children
    (show_rates_body unit sample_load sample_str (Some sample_price_card)
       "BNB" stale_state).2
  = grid_children stale_state ++ [mkHTML "BNB|-------|neutral_color"].
Proof.
  apply (show_rates_body_placeholder sample_load sample_str
           (Some sample_price_card) "BNB" stale_state
           (Exception "network unreachable") sample_price_card).
  - vm_compute. reflexivity.
  - reflexivity.
  - vm_compute. reflexivity.
Defined.

Lemma show_rates_body_card_witness :
  (show_rates_body unit sample_load sample_str (Some sample_price_card)
     "ETH" stale_state).1 = Ok tt ∧
  grid_children
    (show_rates_body unit sample_load sample_str (Some sample_price_card)
       "ETH" stale_state).2
  = grid_children stale_state ++ [mkHTML "ETH|10.0|down_color"] ∧
  exchange_rates
    (show_rates_body unit sample_load sample_str (Some sample_price_card)
       "ETH" stale_state).2
  = ensure_entry "ETH" (exchange_rates stale_state).
Proof.
  apply (show_rates_body_card sample_load sample_str
           (Some sample_price_card) "ETH" stale_state
           "10.0" down_color sample_price_card).
  - vm_compute. reflexivity.
  - reflexivity.
  - vm_compute. reflexivity.
Defined.

Lemma show_rates_returns_witness :
  (show_rates unit failing_load sample_str (Some sample_price_card) tt
     stale_state).1 = Ok tt.
Proof.
  apply (show_rates_returns failing_load sample_str (Some sample_price_card)
           tt stale_state sample_price_card).
  - reflexivity.
  - intros ticker p c. eexists. reflexivity.
Defined.

Lemma show_rates_rates_settled_witness :
  (∀ s, s ∈ COIN_LIST →
        is_Some (exchange_rates (sample_refresh stale_state).2 !! s)) ∧
  exchange_rates
    (refreshes sample_load sample_str (Some sample_price_card) 2
       (sample_refresh stale_state).2)
  = exchange_rates (sample_refresh stale_state).2.
Proof.
  apply (show_rates_rates_settled sample_load sample_str
           (Some sample_price_card) tt stale_state).
  vm_compute. reflexivity.
Defined.

Lemma session_entries_empty_witness :
  empty_entry = empty_entry ∧ "ETH"%string ∈ COIN_LIST.
Proof.
  apply (session_entries_empty sample_load sample_str
           (Some sample_price_card) 2 tt "ETH" empty_entry).
  vm_compute. reflexivity.
Defined.
